(** * hcp-hco-backend: two Express services over three Mongo collections

    The repository holds two scripts.  One (port 5001) serves the
    [master] collection through [GET /fetch-master-data]; the other
    ([hcp_data.js], port 5000) serves the [hcp] and [referal]
    collections through [GET /fetch-data] and [GET /fetch-referal-data],
    adds a [GET /test] route and installs the [cors] middleware.

    The scripts are embedded as they are written: the top level of each
    script is explicit state passing over the process (the router stack
    that [app.use]/[app.get] extend, the listening port, the console),
    and a route handler is a computation over the response object [res]
    in a small monad with JavaScript's three completions (normal,
    [return], [throw]).  Mongoose and the [cors] package are not part of
    the repository: what a [find()] settles to and what the [cors()]
    middleware does are inputs of the model. *)

From Stdlib Require Import String List ZArith Bool Lia.
From ExtLib Require Import Structures.Monad Structures.MonadExc.
Import ListNotations.
Import MonadNotation.

Local Open Scope string_scope.
Local Open Scope Z_scope.
Local Open Scope monad_scope.

(** ** JavaScript values that reach [res.json] *)

(** An [Error] instance, as Mongoose rejects with: its [name] and its
    [message]. *)
Record JsError : Type := mkError {
  err_name : string;
  err_message : string
}.

#[local] Set Warnings "-register-all".

Inductive value : Type :=
| VNull
| VBool (b : bool)
| VNum (n : Z)
| VStr (s : string)
| VArr (items : list value)
| VObj (fields : list (string * value))
| VErr (e : JsError).

(** A stored document; the schemas are [{}] with [strict: false], so any
    shape goes. *)
Definition Document : Type := value.

(** Property lookup on an object literal: the first binding of the key. *)
Fixpoint assoc {A : Type} (k : string) (l : list (string * A)) : option A :=
  match l with
  | [] => None
  | (k', v) :: rest => if String.eqb k k' then Some v else assoc k rest
  end.

Definition field (k : string) (v : value) : option value :=
  match v with
  | VObj fields => assoc k fields
  | _ => None
  end.

Definition has_field (k : string) (v : value) : Prop :=
  exists x, field k v = Some x.

(** ** Requests, responses and observable events *)

Inductive Method : Type := GET | POST | PUT | DELETE | OPTIONS | HEAD.

Definition Method_eqb (a b : Method) : bool :=
  match a, b with
  | GET, GET | POST, POST | PUT, PUT | DELETE, DELETE
  | OPTIONS, OPTIONS | HEAD, HEAD => true
  | _, _ => false
  end.

Record Request : Type := mkRequest {
  req_method : Method;
  req_path : string;
  req_headers : list (string * string)
}.

(** One [res.json]: the status code in force, the headers set on [res]
    so far, and the value handed to [json] (before [JSON.stringify]
    turns it into text). *)
Record Response : Type := mkResponse {
  status : Z;
  headers : list (string * string);
  body : value
}.

Inductive Event : Type :=
| Connect (uri : string)
| Listen (port : Z)
| ConsoleLog (text : string)
| ConsoleLogWith (text : string) (e : JsError)
| ConsoleErrorWith (text : string) (e : JsError)
| Query (collection : string)
| Send (r : Response)
| UnhandledRejection (e : JsError)
| Exit (code : Z).

(** ** The response object and the handler monad *)

Record Res : Type := mkRes {
  statusCode : Z;
  res_headers : list (string * string);
  headersSent : bool
}.

Record World : Type := mkWorld {
  res : Res;
  trace : list Event
}.

Inductive Completion (A : Type) : Type :=
| Normal (a : A)
| Return
| Throw (e : JsError).
Arguments Normal {A} a.
Arguments Return {A}.
Arguments Throw {A} e.

Definition Js (A : Type) : Type := World -> Completion A * World.

Definition Js_ret {A : Type} (a : A) : Js A := fun w => (Normal a, w).

Definition Js_bind {A B : Type} (c : Js A) (k : A -> Js B) : Js B :=
  fun w =>
    match c w with
    | (Normal a, w') => k a w'
    | (Return, w') => (Return, w')
    | (Throw e, w') => (Throw e, w')
    end.

#[export] Instance Monad_Js : Monad Js :=
  {| ret := @Js_ret; bind := @Js_bind |}.

(** [throw e] and [try { c } catch (err) { h err }]; a [return] inside
    the [try] block leaves the function without entering the [catch]. *)
Definition Js_throw {A : Type} (e : JsError) : Js A := fun w => (Throw e, w).

Definition try_catch {A : Type} (c : Js A) (h : JsError -> Js A) : Js A :=
  fun w =>
    match c w with
    | (Throw e, w') => h e w'
    | other => other
    end.

#[export] Instance Exc_Js : MonadExc JsError Js :=
  {| raise := @Js_throw; catch := @try_catch |}.

(** [return e;] where [e] has already been evaluated. *)
Definition return_ {A B : Type} (c : Js A) : Js B :=
  fun w =>
    match c w with
    | (Normal _, w') => (Return, w')
    | (Return, w') => (Return, w')
    | (Throw e, w') => (Throw e, w')
    end.

(** Calling a function: its [return] completes the call normally. *)
Definition call (c : Js unit) : Js unit :=
  fun w =>
    match c w with
    | (Return, w') => (Normal tt, w')
    | other => other
    end.

Definition emit (ev : Event) : Js unit :=
  fun w => (Normal tt, {| res := res w; trace := trace w ++ [ev] |}).

Definition console_log (text : string) : Js unit := emit (ConsoleLog text).

Definition console_error (text : string) (e : JsError) : Js unit :=
  emit (ConsoleErrorWith text e).

(** [res.status(code)]. *)
Definition res_status (code : Z) : Js unit :=
  fun w =>
    (Normal tt,
     {| res := {| statusCode := code;
                  res_headers := res_headers (res w);
                  headersSent := headersSent (res w) |};
        trace := trace w |}).

Definition ERR_HTTP_HEADERS_SENT : JsError :=
  mkError "Error" "Cannot set headers after they are sent to the client".

(** [res.json(v)]: writes the response with the current status code and
    headers; a second write on the same [res] throws. *)
Definition res_json (v : value) : Js unit :=
  fun w =>
    if headersSent (res w) then (Throw ERR_HTTP_HEADERS_SENT, w)
    else
      (Normal tt,
       {| res := {| statusCode := statusCode (res w);
                    res_headers := res_headers (res w);
                    headersSent := true |};
          trace := trace w ++
                   [Send {| status := statusCode (res w);
                            headers := res_headers (res w);
                            body := v |}] |}).

(** ** The database as the handlers see it *)

(** [mongoose.model(name, schema, collection)]. *)
Record Model : Type := mkModel {
  modelName : string;
  collection : string
}.

(** What [Model.find()] does when awaited: the promise resolves with the
    documents, it rejects, or the call itself throws. *)
Inductive ReadOutcome : Type :=
| Resolves (docs : list Document)
| Rejects (e : JsError)
| Throws (e : JsError).

Definition Db : Type := string -> ReadOutcome.

Definition read_fails (o : ReadOutcome) : option JsError :=
  match o with
  | Resolves _ => None
  | Rejects e => Some e
  | Throws e => Some e
  end.

(** [await M.find()]. *)
Definition find (m : Model) (db : Db) : Js (list Document) :=
  emit (Query (collection m)) ;;
  match db (collection m) with
  | Resolves docs => ret docs
  | Rejects e => raise e
  | Throws e => raise e
  end.

(** ** Express routing *)

Inductive Flow : Type := Next | End.

Definition Middleware : Type := Request -> Js Flow.
Definition Handler : Type := Db -> Request -> Js unit.

Inductive Layer : Type :=
| Use (mw : Middleware)
| Route (m : Method) (path : string) (h : Handler).

Definition Method_name (m : Method) : string :=
  match m with
  | GET => "GET"
  | POST => "POST"
  | PUT => "PUT"
  | DELETE => "DELETE"
  | OPTIONS => "OPTIONS"
  | HEAD => "HEAD"
  end.

(** No layer answered: Express's final handler. *)
Definition final_handler (req : Request) : Js unit :=
  res_status 404 ;;
  res_json (VStr ("Cannot " ++ Method_name (req_method req) ++ " " ++ req_path req)).

Fixpoint handle (stack : list Layer) (db : Db) (req : Request) : Js unit :=
  match stack with
  | [] => final_handler req
  | Use mw :: rest =>
      flow <- mw req ;;
      match flow with
      | Next => handle rest db req
      | End => ret tt
      end
  | Route m path h :: rest =>
      if Method_eqb (req_method req) m && String.eqb (req_path req) path
      then call (h db req)
      else handle rest db req
  end.

(** ** The process: what a script's top level builds *)

Record Process : Type := mkProcess {
  stack : list Layer;
  listening : option Z;
  console : list Event
}.

Definition new_process : Process :=
  {| stack := []; listening := None; console := [] |}.

Definition log (ev : Event) (p : Process) : Process :=
  {| stack := stack p; listening := listening p; console := console p ++ [ev] |}.

Definition app_use (mw : Middleware) (p : Process) : Process :=
  {| stack := stack p ++ [Use mw]; listening := listening p; console := console p |}.

Definition app_get (path : string) (h : Handler) (p : Process) : Process :=
  {| stack := stack p ++ [Route GET path h];
     listening := listening p; console := console p |}.

Definition app_listen (port : Z) (cb : Process -> Process) (p : Process) : Process :=
  cb {| stack := stack p; listening := Some port;
        console := console p ++ [Listen port] |}.

(** A promise once settled. *)
Inductive Settled : Type :=
| Fulfilled
| Rejected (e : JsError).

(** [mongoose.connect(uri, options)]: one connection attempt, settled
    as the environment decides. *)
Definition mongoose_connect (uri : string) (outcome : Settled)
    (p : Process) : Settled * Process :=
  (outcome, log (Connect uri) p).

Definition promise_then (f : Process -> Process)
    (sp : Settled * Process) : Settled * Process :=
  match sp with
  | (Fulfilled, p) => (Fulfilled, f p)
  | (Rejected e, p) => (Rejected e, p)
  end.

Definition promise_catch (g : JsError -> Process -> Process)
    (sp : Settled * Process) : Settled * Process :=
  match sp with
  | (Fulfilled, p) => (Fulfilled, p)
  | (Rejected e, p) => (Fulfilled, g e p)
  end.

(** The promise is dropped by the statement: a rejection still pending
    on it has no handler. *)
Definition discard (sp : Settled * Process) : Process :=
  match sp with
  | (Fulfilled, p) => p
  | (Rejected e, p) => log (UnhandledRejection e) p
  end.

Definition new_res : Res :=
  {| statusCode := 200; res_headers := []; headersSent := false |}.

Definition new_world : World := {| res := new_res; trace := [] |}.

(** One request against a process: nothing is served unless the process
    listens; otherwise the router stack runs on a new response object. *)
Definition serve (p : Process) (db : Db) (req : Request)
    : option (Completion unit * World) :=
  match listening p with
  | None => None
  | Some _ => Some (handle (stack p) db req new_world)
  end.

(** The responses written for a request. *)
Fixpoint responses (t : list Event) : list Response :=
  match t with
  | [] => []
  | Send r :: rest => r :: responses rest
  | _ :: rest => responses rest
  end.

Fixpoint queries (t : list Event) : list string :=
  match t with
  | [] => []
  | Query c :: rest => c :: queries rest
  | _ :: rest => queries rest
  end.

(** ** Service A: master data (port 5001) *)

Module MasterService.

Definition PORT : Z := 5001.

Definition MasterData : Model := mkModel "MasterData" "master".

(** [app.get('/fetch-master-data', async (req, res) => { ... })] *)
Definition fetch_master_data : Handler := fun db req =>
  try_catch
    (masterData <- find MasterData db ;;
     (if (Z.of_nat (length masterData) =? 0)
      then return_ (res_status 404 ;;
                    res_json (VObj [("message", VStr "No Master Data Found")]))
      else ret tt) ;;
     res_json (VArr masterData))
    (fun err =>
       res_status 500 ;;
       res_json (VObj [("message", VStr "Error fetching Master Data");
                       ("error", VErr err)])).

Definition main (connection : Settled) : Process :=
  let p := new_process in
  let p :=
    discard
      (promise_catch
         (fun err => log (ConsoleLogWith "Error connecting to MongoDB: " err))
         (promise_then
            (log (ConsoleLog "Connected to MongoDB"))
            (mongoose_connect "mongodb://localhost:27017/zolgensma" connection p))) in
  let p := app_get "/fetch-master-data" fetch_master_data p in
  app_listen PORT
    (log (ConsoleLog "Server running on http://localhost:5001")) p.

End MasterService.

(** ** Service B: hcp and referral data (port 5000) *)

Module HcpService.

Definition PORT : Z := 5000.

Definition ReferalData : Model := mkModel "ReferalData" "referal".
Definition HcpData : Model := mkModel "HcpData" "hcp".

(** [app.get('/fetch-data', async (req, res) => { ... })] *)
Definition fetch_data : Handler := fun db req =>
  console_log "Received request to /fetch-data" ;;
  try_catch
    (data <- find HcpData db ;;
     res_json (VArr data))
    (fun err =>
       console_error "Error fetching HCP data:" err ;;
       res_status 500 ;;
       res_json (VObj [("message", VStr "Error fetching HCP data");
                       ("error", VStr (err_message err))])).

(** [app.get('/fetch-referal-data', async (req, res) => { ... })] *)
Definition fetch_referal_data : Handler := fun db req =>
  console_log "Received request to /fetch-referal-data" ;;
  try_catch
    (refer_data <- find ReferalData db ;;
     res_json (VArr refer_data))
    (fun err =>
       console_error "Error fetching Master Data:" err ;;
       res_status 500 ;;
       res_json (VObj [("message", VStr "Error fetching Master Data");
                       ("error", VStr (err_message err))])).

(** [app.get('/test', (req, res) => { ... })] *)
Definition test : Handler := fun db req =>
  res_json (VObj [("message", VStr "API is working!")]).

(** [cors] stands for the middleware that the call [cors()] returns. *)
Definition main (cors : Middleware) (connection : Settled) : Process :=
  let p := new_process in
  let p := app_use cors p in
  let p :=
    discard
      (promise_catch
         (fun err => log (ConsoleLogWith "Error connecting to MongoDB: " err))
         (promise_then
            (log (ConsoleLog "Connected to MongoDB"))
            (mongoose_connect "mongodb://localhost:27017/zolgensma" connection p))) in
  let p := app_get "/fetch-data" fetch_data p in
  let p := app_get "/fetch-referal-data" fetch_referal_data p in
  let p := app_get "/test" test p in
  app_listen PORT
    (fun p => log (ConsoleLog "CORS is enabled for all origins")
                (log (ConsoleLog "Server running on http://localhost:5000") p)) p.

End HcpService.


(** ** Vocabulary of the statements *)

(** The three routes that read a collection, with the path each is
    registered under, the collection its model is bound to and the
    process that serves it. *)
Inductive DataRoute : Type := Master | Hcp | Referral.

Definition route_path (r : DataRoute) : string :=
  match r with
  | Master => "/fetch-master-data"
  | Hcp => "/fetch-data"
  | Referral => "/fetch-referal-data"
  end.

Definition route_model (r : DataRoute) : Model :=
  match r with
  | Master => MasterService.MasterData
  | Hcp => HcpService.HcpData
  | Referral => HcpService.ReferalData
  end.

Definition route_process (r : DataRoute) (cors : Middleware)
    (connection : Settled) : Process :=
  match r with
  | Master => MasterService.main connection
  | Hcp | Referral => HcpService.main cors connection
  end.

(** The routes of service B, in registration order. *)
Definition hcp_routes : list Layer :=
  [Route GET "/fetch-data" HcpService.fetch_data;
   Route GET "/fetch-referal-data" HcpService.fetch_referal_data;
   Route GET "/test" HcpService.test].

(** What the [cors()] middleware is taken to do on a request that is not
    a preflight: it allows any origin on [res], passes control on, and
    touches neither the status code nor the wire nor the console. *)
Definition permissive_cors (cors : Middleware) : Prop :=
  forall req w,
    req_method req <> OPTIONS ->
    exists w',
      cors req w = (Normal Next, w') /\
      assoc "Access-Control-Allow-Origin" (res_headers (res w')) = Some "*" /\
      statusCode (res w') = statusCode (res w) /\
      headersSent (res w') = headersSent (res w) /\
      trace w' = trace w.

(** [res.setHeader(name, v)]. *)
Definition res_setHeader (name v : string) : Js unit :=
  fun w =>
    (Normal tt,
     {| res := {| statusCode := statusCode (res w);
                  res_headers := (name, v) :: res_headers (res w);
                  headersSent := headersSent (res w) |};
        trace := trace w |}).

(** A middleware that meets [permissive_cors]. *)
Definition allow_any_origin : Middleware := fun req =>
  res_setHeader "Access-Control-Allow-Origin" "*" ;;
  ret Next.

Definition attempts (t : list Event) : nat :=
  length (filter (fun ev => match ev with Connect _ => true | _ => false end) t).

Definition stopped (t : list Event) : bool :=
  existsb (fun ev => match ev with
                     | Exit _ | UnhandledRejection _ => true
                     | _ => false
                     end) t.

(** The state of [res] once written. *)
Definition written (r : Res) : Res :=
  {| statusCode := statusCode r; res_headers := res_headers r; headersSent := true |}.

(** The console lines of a trace, in order. *)
Definition console_lines (t : list Event) : list Event :=
  filter (fun ev => match ev with
                    | ConsoleLog _ | ConsoleLogWith _ _ | ConsoleErrorWith _ _ => true
                    | _ => false
                    end) t.


(** ** What the two scripts build *)

Lemma master_stack connection :
  stack (MasterService.main connection)
  = [Route GET "/fetch-master-data" MasterService.fetch_master_data].
Proof. destruct connection; reflexivity. Qed.

Lemma master_listening connection :
  listening (MasterService.main connection) = Some MasterService.PORT.
Proof. destruct connection; reflexivity. Qed.

Lemma hcp_stack cors connection :
  stack (HcpService.main cors connection)
  = [Use cors;
     Route GET "/fetch-data" HcpService.fetch_data;
     Route GET "/fetch-referal-data" HcpService.fetch_referal_data;
     Route GET "/test" HcpService.test].
Proof. destruct connection; reflexivity. Qed.

Lemma hcp_listening cors connection :
  listening (HcpService.main cors connection) = Some HcpService.PORT.
Proof. destruct connection; reflexivity. Qed.

(** A request for the master route reaches its handler on a new [res]. *)
Lemma serve_master connection db hs :
  serve (MasterService.main connection) db (mkRequest GET "/fetch-master-data" hs)
  = Some (call (MasterService.fetch_master_data db
                  (mkRequest GET "/fetch-master-data" hs)) new_world).
Proof.
  unfold serve. rewrite master_listening, master_stack. reflexivity.
Qed.

(** ** The master-data handler, branch by branch *)

Section MasterHandler.

Variable db : Db.
Variable req : Request.

Let run := MasterService.fetch_master_data db req new_world.

Lemma master_run_empty :
  db "master" = Resolves [] ->
  run = (Return,
         {| res := mkRes 404 [] true;
            trace := [Query "master";
                      Send (mkResponse 404 []
                              (VObj [("message", VStr "No Master Data Found")]))] |}).
Proof.
  intros H. unfold run, MasterService.fetch_master_data, try_catch, find.
  cbn. unfold Js_bind. cbn. rewrite H. reflexivity.
Qed.

Lemma master_run_some docs :
  db "master" = Resolves docs -> docs <> [] ->
  run = (Normal tt,
         {| res := mkRes 200 [] true;
            trace := [Query "master"; Send (mkResponse 200 [] (VArr docs))] |}).
Proof.
  intros H Hne. unfold run, MasterService.fetch_master_data, try_catch, find.
  cbn. unfold Js_bind. cbn. rewrite H.
  destruct docs as [|d docs]; [congruence|]. reflexivity.
Qed.

Lemma master_run_failed e :
  read_fails (db "master") = Some e ->
  run = (Normal tt,
         {| res := mkRes 500 [] true;
            trace := [Query "master";
                      Send (mkResponse 500 []
                              (VObj [("message", VStr "Error fetching Master Data");
                                     ("error", VErr e)]))] |}).
Proof.
  intros H. unfold run, MasterService.fetch_master_data, try_catch, find.
  cbn. unfold Js_bind. cbn.
  destruct (db "master") as [docs|e'|e']; cbn in H; inversion H; subst; reflexivity.
Qed.

End MasterHandler.

(** ** Service A *)

(** C1: a GET on /fetch-master-data whose read resolves with no document
    is answered once, with status 404 and the body
    [{ message: "No Master Data Found" }]. *)
Theorem master_empty_is_404 (connection : Settled) (db : Db)
    (hs : list (string * string)) :
  db "master" = Resolves [] ->
  exists w,
    serve (MasterService.main connection) db
          (mkRequest GET "/fetch-master-data" hs) = Some (Normal tt, w) /\
    responses (trace w)
    = [mkResponse 404 [] (VObj [("message", VStr "No Master Data Found")])].
Proof.
  intros H. rewrite serve_master. unfold call.
  rewrite (master_run_empty db _ H). eexists; split; reflexivity.
Qed.

Lemma master_empty_is_404_witness :
  exists w,
    serve (MasterService.main Fulfilled) (fun _ => Resolves [])
          (mkRequest GET "/fetch-master-data" []) = Some (Normal tt, w) /\
    responses (trace w)
    = [mkResponse 404 [] (VObj [("message", VStr "No Master Data Found")])].
Proof.
  apply (master_empty_is_404 Fulfilled (fun _ => Resolves []) []). reflexivity.
Defined.

(** C2: a GET on /fetch-master-data whose read resolves with N > 0
    documents is answered once, with status 200 and the array of those
    documents in the order the store gave them. *)
Theorem master_documents_are_200 (connection : Settled) (db : Db)
    (hs : list (string * string)) (docs : list Document) :
  db "master" = Resolves docs ->
  (0 < length docs)%nat ->
  exists w,
    serve (MasterService.main connection) db
          (mkRequest GET "/fetch-master-data" hs) = Some (Normal tt, w) /\
    responses (trace w) = [mkResponse 200 [] (VArr docs)].
Proof.
  intros H Hn. rewrite serve_master. unfold call.
  rewrite (master_run_some db _ docs H).
  - eexists; split; reflexivity.
  - intros ->. cbn in Hn. lia.
Qed.

Lemma master_documents_are_200_witness :
  exists w,
    serve (MasterService.main Fulfilled)
          (fun _ => Resolves [VObj [("a", VNum 1)]; VObj [("a", VNum 2)]])
          (mkRequest GET "/fetch-master-data" []) = Some (Normal tt, w) /\
    responses (trace w)
    = [mkResponse 200 [] (VArr [VObj [("a", VNum 1)]; VObj [("a", VNum 2)]])].
Proof.
  apply (master_documents_are_200 Fulfilled
           (fun _ => Resolves [VObj [("a", VNum 1)]; VObj [("a", VNum 2)]]) []).
  - reflexivity.
  - cbn. lia.
Defined.

(** C10: every GET on /fetch-master-data is answered exactly once.  The
    handler leaves through [return] right after the 404 when the
    collection is empty, completes normally after the 200 or the 500
    otherwise, and which of the three it is follows from the read. *)
Theorem master_single_response (connection : Settled) (db : Db)
    (hs : list (string * string)) :
  exists c w r,
    MasterService.fetch_master_data db
      (mkRequest GET "/fetch-master-data" hs) new_world = (c, w) /\
    serve (MasterService.main connection) db
          (mkRequest GET "/fetch-master-data" hs) = Some (Normal tt, w) /\
    responses (trace w) = [r] /\
    ((db "master" = Resolves [] /\ status r = 404 /\ c = Return)
     \/ (exists docs, db "master" = Resolves docs /\ docs <> [] /\
                      status r = 200 /\ c = Normal tt)
     \/ (exists e, read_fails (db "master") = Some e /\
                   status r = 500 /\ c = Normal tt)).
Proof.
  rewrite serve_master. unfold call.
  destruct (db "master") as [docs|e|e] eqn:Hdb.
  - destruct docs as [|d docs].
    + rewrite (master_run_empty db _ Hdb).
      do 3 eexists. repeat split; try reflexivity. left. auto.
    + rewrite (master_run_some db _ (d :: docs) Hdb) by discriminate.
      do 3 eexists. repeat split; try reflexivity.
      right; left. exists (d :: docs). repeat split; auto. discriminate.
  - rewrite (master_run_failed db _ e) by (rewrite Hdb; reflexivity).
    do 3 eexists. repeat split; try reflexivity.
    right; right. exists e. auto.
  - rewrite (master_run_failed db _ e) by (rewrite Hdb; reflexivity).
    do 3 eexists. repeat split; try reflexivity.
    right; right. exists e. auto.
Qed.

(** ** The handlers of service B on any unwritten [res] *)

Ltac run_handler :=
  unfold HcpService.fetch_data, HcpService.fetch_referal_data, HcpService.test,
    try_catch, find, console_log, console_error;
  cbn; unfold Js_bind; cbn.

Section HcpHandlers.

Variable db : Db.
Variable req : Request.
Variable w : World.
Hypothesis unwritten : headersSent (res w) = false.

Lemma fetch_data_resolves docs :
  db "hcp" = Resolves docs ->
  HcpService.fetch_data db req w
  = (Normal tt,
     {| res := written (res w);
        trace := trace w ++
                 [ConsoleLog "Received request to /fetch-data"; Query "hcp";
                  Send (mkResponse (statusCode (res w)) (res_headers (res w))
                          (VArr docs))] |}).
Proof.
  intros H. run_handler. rewrite H. unfold res_json. cbn. rewrite unwritten.
  rewrite <- !app_assoc. reflexivity.
Qed.

Lemma fetch_data_fails e :
  read_fails (db "hcp") = Some e ->
  HcpService.fetch_data db req w
  = (Normal tt,
     {| res := mkRes 500 (res_headers (res w)) true;
        trace := trace w ++
                 [ConsoleLog "Received request to /fetch-data"; Query "hcp";
                  ConsoleErrorWith "Error fetching HCP data:" e;
                  Send (mkResponse 500 (res_headers (res w))
                          (VObj [("message", VStr "Error fetching HCP data");
                                 ("error", VStr (err_message e))]))] |}).
Proof.
  intros H. run_handler.
  destruct (db "hcp") as [docs|e'|e']; cbn in H; inversion H; subst;
    unfold res_json; cbn; rewrite unwritten; rewrite <- !app_assoc; reflexivity.
Qed.

Lemma fetch_referal_data_resolves docs :
  db "referal" = Resolves docs ->
  HcpService.fetch_referal_data db req w
  = (Normal tt,
     {| res := written (res w);
        trace := trace w ++
                 [ConsoleLog "Received request to /fetch-referal-data";
                  Query "referal";
                  Send (mkResponse (statusCode (res w)) (res_headers (res w))
                          (VArr docs))] |}).
Proof.
  intros H. run_handler. rewrite H. unfold res_json. cbn. rewrite unwritten.
  rewrite <- !app_assoc. reflexivity.
Qed.

Lemma fetch_referal_data_fails e :
  read_fails (db "referal") = Some e ->
  HcpService.fetch_referal_data db req w
  = (Normal tt,
     {| res := mkRes 500 (res_headers (res w)) true;
        trace := trace w ++
                 [ConsoleLog "Received request to /fetch-referal-data";
                  Query "referal";
                  ConsoleErrorWith "Error fetching Master Data:" e;
                  Send (mkResponse 500 (res_headers (res w))
                          (VObj [("message", VStr "Error fetching Master Data");
                                 ("error", VStr (err_message e))]))] |}).
Proof.
  intros H. run_handler.
  destruct (db "referal") as [docs|e'|e']; cbn in H; inversion H; subst;
    unfold res_json; cbn; rewrite unwritten; rewrite <- !app_assoc; reflexivity.
Qed.

Lemma test_replies :
  HcpService.test db req w
  = (Normal tt,
     {| res := written (res w);
        trace := trace w ++
                 [Send (mkResponse (statusCode (res w)) (res_headers (res w))
                          (VObj [("message", VStr "API is working!")]))] |}).
Proof. run_handler. unfold res_json. rewrite unwritten. reflexivity. Qed.

End HcpHandlers.

(** ** Service B behind its middleware *)

Section HcpDispatch.

Variable cors : Middleware.
Hypothesis cors_ok : permissive_cors cors.

(** The middleware runs first and hands an unwritten [res], with the
    header set and the status still 200, to the routes. *)
Lemma serve_hcp connection db req :
  req_method req = GET ->
  exists w',
    assoc "Access-Control-Allow-Origin" (res_headers (res w')) = Some "*" /\
    statusCode (res w') = 200 /\
    headersSent (res w') = false /\
    trace w' = [] /\
    serve (HcpService.main cors connection) db req
    = Some (handle hcp_routes db req w').
Proof.
  intros Hm.
  destruct (cors_ok req new_world) as (w' & Hrun & Hh & Hs & Hsent & Ht).
  { rewrite Hm. discriminate. }
  exists w'. repeat split; auto.
  unfold serve. rewrite hcp_listening, hcp_stack.
  cbn. unfold Js_bind. rewrite Hrun. reflexivity.
Qed.

Lemma serve_hcp_data connection db hs :
  exists w',
    assoc "Access-Control-Allow-Origin" (res_headers (res w')) = Some "*" /\
    statusCode (res w') = 200 /\
    headersSent (res w') = false /\
    trace w' = [] /\
    serve (HcpService.main cors connection) db (mkRequest GET "/fetch-data" hs)
    = Some (call (HcpService.fetch_data db (mkRequest GET "/fetch-data" hs)) w').
Proof.
  destruct (serve_hcp connection db (mkRequest GET "/fetch-data" hs) eq_refl)
    as (w' & ? & ? & ? & ? & ->).
  exists w'. repeat split; auto.
Qed.

Lemma serve_hcp_referal connection db hs :
  exists w',
    assoc "Access-Control-Allow-Origin" (res_headers (res w')) = Some "*" /\
    statusCode (res w') = 200 /\
    headersSent (res w') = false /\
    trace w' = [] /\
    serve (HcpService.main cors connection) db
          (mkRequest GET "/fetch-referal-data" hs)
    = Some (call (HcpService.fetch_referal_data db
                    (mkRequest GET "/fetch-referal-data" hs)) w').
Proof.
  destruct (serve_hcp connection db (mkRequest GET "/fetch-referal-data" hs) eq_refl)
    as (w' & ? & ? & ? & ? & ->).
  exists w'. repeat split; auto.
Qed.

Lemma serve_hcp_test connection db hs :
  exists w',
    assoc "Access-Control-Allow-Origin" (res_headers (res w')) = Some "*" /\
    statusCode (res w') = 200 /\
    headersSent (res w') = false /\
    trace w' = [] /\
    serve (HcpService.main cors connection) db (mkRequest GET "/test" hs)
    = Some (call (HcpService.test db (mkRequest GET "/test" hs)) w').
Proof.
  destruct (serve_hcp connection db (mkRequest GET "/test" hs) eq_refl)
    as (w' & ? & ? & ? & ? & ->).
  exists w'. repeat split; auto.
Qed.

End HcpDispatch.

Lemma allow_any_origin_permissive : permissive_cors allow_any_origin.
Proof.
  intros req w _. eexists. split; [reflexivity|]. cbn. repeat split; reflexivity.
Defined.

(** ** Replies of the data routes *)

Section Replies.

Variable cors : Middleware.
Hypothesis cors_ok : permissive_cors cors.
Variable connection : Settled.
Variable db : Db.
Variable hs : list (string * string).

Lemma master_reply_failed e :
  read_fails (db "master") = Some e ->
  exists w,
    serve (MasterService.main connection) db
          (mkRequest GET "/fetch-master-data" hs) = Some (Normal tt, w) /\
    responses (trace w)
    = [mkResponse 500 []
         (VObj [("message", VStr "Error fetching Master Data");
                ("error", VErr e)])].
Proof.
  intros H. rewrite serve_master. unfold call.
  rewrite (master_run_failed db _ e H). eexists; split; reflexivity.
Qed.

Lemma hcp_reply_resolved r docs :
  r <> Master ->
  db (collection (route_model r)) = Resolves docs ->
  exists w hdrs,
    serve (route_process r cors connection) db
          (mkRequest GET (route_path r) hs) = Some (Normal tt, w) /\
    responses (trace w) = [mkResponse 200 hdrs (VArr docs)] /\
    assoc "Access-Control-Allow-Origin" hdrs = Some "*".
Proof.
  intros Hr H. destruct r; [congruence| |];
    cbn [route_process route_path route_model collection] in *.
  - destruct (serve_hcp_data cors cors_ok connection db hs)
      as (w' & Hh & Hs & Hsent & Ht & ->).
    unfold call. rewrite (fetch_data_resolves db _ w' Hsent docs H).
    do 2 eexists. split; [reflexivity|]. cbn. rewrite Ht, Hs. cbn. auto.
  - destruct (serve_hcp_referal cors cors_ok connection db hs)
      as (w' & Hh & Hs & Hsent & Ht & ->).
    unfold call. rewrite (fetch_referal_data_resolves db _ w' Hsent docs H).
    do 2 eexists. split; [reflexivity|]. cbn. rewrite Ht, Hs. cbn. auto.
Qed.

Lemma hcp_reply_failed r e :
  r <> Master ->
  read_fails (db (collection (route_model r))) = Some e ->
  exists w hdrs text,
    serve (route_process r cors connection) db
          (mkRequest GET (route_path r) hs) = Some (Normal tt, w) /\
    responses (trace w)
    = [mkResponse 500 hdrs
         (VObj [("message", VStr text); ("error", VStr (err_message e))])] /\
    assoc "Access-Control-Allow-Origin" hdrs = Some "*".
Proof.
  intros Hr H. destruct r; [congruence| |];
    cbn [route_process route_path route_model collection] in *.
  - destruct (serve_hcp_data cors cors_ok connection db hs)
      as (w' & Hh & Hs & Hsent & Ht & ->).
    unfold call. rewrite (fetch_data_fails db _ w' Hsent e H).
    do 3 eexists. split; [reflexivity|]. cbn. rewrite Ht. cbn. auto.
  - destruct (serve_hcp_referal cors cors_ok connection db hs)
      as (w' & Hh & Hs & Hsent & Ht & ->).
    unfold call. rewrite (fetch_referal_data_fails db _ w' Hsent e H).
    do 3 eexists. split; [reflexivity|]. cbn. rewrite Ht. cbn. auto.
Qed.

Lemma test_reply :
  exists w hdrs,
    serve (HcpService.main cors connection) db (mkRequest GET "/test" hs)
    = Some (Normal tt, w) /\
    trace w
    = [Send (mkResponse 200 hdrs (VObj [("message", VStr "API is working!")]))] /\
    assoc "Access-Control-Allow-Origin" hdrs = Some "*".
Proof.
  destruct (serve_hcp_test cors cors_ok connection db hs)
    as (w' & Hh & Hs & Hsent & Ht & ->).
  unfold call. rewrite (test_replies db _ w' Hsent).
  do 2 eexists. split; [reflexivity|]. cbn. rewrite Ht, Hs. cbn. auto.
Qed.

End Replies.

Lemma read_outcome_cases (o : ReadOutcome) :
  (exists docs, o = Resolves docs) \/ (exists e, read_fails o = Some e).
Proof. destruct o; cbn; eauto. Qed.

(** ** Service B *)

(** C3: a GET on /fetch-data or /fetch-referal-data whose read resolves
    is answered once, with status 200 and the array of the documents of
    the bound collection (the empty array for an empty collection); and
    whatever the read does, no response of these routes has status 404. *)
Theorem hcp_routes_reply_200 (cors : Middleware) (connection : Settled)
    (db : Db) (hs : list (string * string)) (r : DataRoute)
    (docs : list Document) :
  permissive_cors cors ->
  r <> Master ->
  db (collection (route_model r)) = Resolves docs ->
  (exists w hdrs,
     serve (route_process r cors connection) db
           (mkRequest GET (route_path r) hs) = Some (Normal tt, w) /\
     responses (trace w) = [mkResponse 200 hdrs (VArr docs)])
  /\ (forall db' c' w' x,
        serve (route_process r cors connection) db'
              (mkRequest GET (route_path r) hs) = Some (c', w') ->
        In x (responses (trace w')) -> status x <> 404).
Proof.
  intros Hc Hr H. split.
  - destruct (hcp_reply_resolved cors Hc connection db hs r docs Hr H)
      as (w & hdrs & Hs & Hrs & _). eauto.
  - intros db' c' w' x Hs Hin.
    destruct (read_outcome_cases (db' (collection (route_model r))))
      as [[docs' Hd]|[e He]].
    + destruct (hcp_reply_resolved cors Hc connection db' hs r docs' Hr Hd)
        as (w & hdrs & Hs' & Hrs & _).
      rewrite Hs' in Hs. inversion Hs; subst. rewrite Hrs in Hin.
      destruct Hin as [<-|[]]. cbn. lia.
    + destruct (hcp_reply_failed cors Hc connection db' hs r e Hr He)
        as (w & hdrs & text & Hs' & Hrs & _).
      rewrite Hs' in Hs. inversion Hs; subst. rewrite Hrs in Hin.
      destruct Hin as [<-|[]]. cbn. lia.
Qed.

Lemma hcp_routes_reply_200_witness :
  exists w hdrs,
    serve (HcpService.main allow_any_origin Fulfilled) (fun _ => Resolves [])
          (mkRequest GET "/fetch-data" []) = Some (Normal tt, w) /\
    responses (trace w) = [mkResponse 200 hdrs (VArr [])].
Proof.
  apply (hcp_routes_reply_200 allow_any_origin Fulfilled (fun _ => Resolves [])
           [] Hcp []).
  - apply allow_any_origin_permissive.
  - discriminate.
  - reflexivity.
Defined.

(** C7: a GET on /test is answered once, with status 200 and the body
    [{ message: "API is working!" }], whatever the connection attempt
    gave and whatever reads would give; the handler issues no query. *)
Theorem test_route_is_fixed (cors : Middleware) (connection : Settled)
    (db : Db) (hs : list (string * string)) :
  permissive_cors cors ->
  exists w hdrs,
    serve (HcpService.main cors connection) db (mkRequest GET "/test" hs)
    = Some (Normal tt, w) /\
    responses (trace w)
    = [mkResponse 200 hdrs (VObj [("message", VStr "API is working!")])] /\
    queries (trace w) = [].
Proof.
  intros Hc.
  destruct (test_reply cors Hc connection db hs) as (w & hdrs & Hs & Ht & _).
  exists w, hdrs. rewrite Ht. repeat split; auto.
Qed.

Lemma test_route_is_fixed_witness :
  exists w hdrs,
    serve (HcpService.main allow_any_origin (Rejected (mkError "MongoNetworkError" "ECONNREFUSED")))
          (fun _ => Rejects (mkError "MongooseError" "buffering timed out"))
          (mkRequest GET "/test" [])
    = Some (Normal tt, w) /\
    responses (trace w)
    = [mkResponse 200 hdrs (VObj [("message", VStr "API is working!")])] /\
    queries (trace w) = [].
Proof.
  apply (test_route_is_fixed allow_any_origin).
  apply allow_any_origin_permissive.
Defined.

(** C8: the [cors] middleware is the first layer of service B, ahead of
    the three routes, and the one response that each of /fetch-data,
    /fetch-referal-data and /test gives carries
    [Access-Control-Allow-Origin: *]. *)
Theorem cors_covers_hcp_routes (cors : Middleware) (connection : Settled)
    (db : Db) (hs : list (string * string)) (path : string) :
  permissive_cors cors ->
  In path ["/fetch-data"; "/fetch-referal-data"; "/test"] ->
  stack (HcpService.main cors connection) = Use cors :: hcp_routes
  /\ exists w resp,
       serve (HcpService.main cors connection) db (mkRequest GET path hs)
       = Some (Normal tt, w) /\
       responses (trace w) = [resp] /\
       assoc "Access-Control-Allow-Origin" (headers resp) = Some "*".
Proof.
  intros Hc Hp. split; [apply hcp_stack|].
  destruct Hp as [<-|[<-|[<-|[]]]].
  - destruct (read_outcome_cases (db "hcp")) as [[docs Hd]|[e He]].
    + destruct (hcp_reply_resolved cors Hc connection db hs Hcp docs) as
        (w & hdrs & Hs & Hrs & Hh); [discriminate|exact Hd|].
      exists w. eexists. repeat split; eauto.
    + destruct (hcp_reply_failed cors Hc connection db hs Hcp e) as
        (w & hdrs & text & Hs & Hrs & Hh); [discriminate|exact He|].
      exists w. eexists. repeat split; eauto.
  - destruct (read_outcome_cases (db "referal")) as [[docs Hd]|[e He]].
    + destruct (hcp_reply_resolved cors Hc connection db hs Referral docs) as
        (w & hdrs & Hs & Hrs & Hh); [discriminate|exact Hd|].
      exists w. eexists. repeat split; eauto.
    + destruct (hcp_reply_failed cors Hc connection db hs Referral e) as
        (w & hdrs & text & Hs & Hrs & Hh); [discriminate|exact He|].
      exists w. eexists. repeat split; eauto.
  - destruct (test_reply cors Hc connection db hs) as (w & hdrs & Hs & Ht & Hh).
    exists w. eexists. rewrite Ht. repeat split; eauto.
Qed.

Lemma cors_covers_hcp_routes_witness :
  stack (HcpService.main allow_any_origin Fulfilled) = Use allow_any_origin :: hcp_routes
  /\ exists w resp,
       serve (HcpService.main allow_any_origin Fulfilled)
             (fun _ => Resolves [VObj [("npi", VStr "1234567890")]])
             (mkRequest GET "/fetch-referal-data" [("Origin", "http://localhost:3000")])
       = Some (Normal tt, w) /\
       responses (trace w) = [resp] /\
       assoc "Access-Control-Allow-Origin" (headers resp) = Some "*".
Proof.
  apply (cors_covers_hcp_routes allow_any_origin).
  - apply allow_any_origin_permissive.
  - cbn. auto.
Defined.

(** The reply of any data route to a failed read, in full. *)
Lemma failed_read_reply (cors : Middleware) (connection : Settled)
    (db : Db) (hs : list (string * string)) (r : DataRoute) (e : JsError) :
  permissive_cors cors ->
  read_fails (db (collection (route_model r))) = Some e ->
  exists w hdrs,
    serve (route_process r cors connection) db
          (mkRequest GET (route_path r) hs) = Some (Normal tt, w) /\
    responses (trace w)
    = [mkResponse 500 hdrs
         (VObj [("message",
                 VStr match r with
                      | Master | Referral => "Error fetching Master Data"
                      | Hcp => "Error fetching HCP data"
                      end);
                ("error",
                 match r with
                 | Master => VErr e
                 | Hcp | Referral => VStr (err_message e)
                 end)])].
Proof.
  intros Hc H. destruct r.
  - destruct (master_reply_failed connection db hs e H) as (w & Hs & Hrs).
    exists w. eexists. split; [exact Hs|exact Hrs].
  - destruct (serve_hcp_data cors Hc connection db hs)
      as (w' & Hh & Hst & Hsent & Ht & Hs).
    cbn [route_process route_path]. rewrite Hs. unfold call.
    rewrite (fetch_data_fails db _ w' Hsent e H).
    do 2 eexists. split; [reflexivity|]. cbn. rewrite Ht. reflexivity.
  - destruct (serve_hcp_referal cors Hc connection db hs)
      as (w' & Hh & Hst & Hsent & Ht & Hs).
    cbn [route_process route_path]. rewrite Hs. unfold call.
    rewrite (fetch_referal_data_fails db _ w' Hsent e H).
    do 2 eexists. split; [reflexivity|]. cbn. rewrite Ht. reflexivity.
Qed.

(** ** Failed reads and failed connections *)

(** C4: on each of the three data routes, a read that rejects or throws
    is caught in the handler: the call completes normally, and the one
    response has status 500 and an object body with a [message] and an
    [error] field. *)
Theorem read_failure_is_500 (cors : Middleware) (connection : Settled)
    (db : Db) (hs : list (string * string)) (r : DataRoute) (e : JsError) :
  permissive_cors cors ->
  read_fails (db (collection (route_model r))) = Some e ->
  exists w resp,
    serve (route_process r cors connection) db
          (mkRequest GET (route_path r) hs) = Some (Normal tt, w) /\
    responses (trace w) = [resp] /\
    status resp = 500 /\
    has_field "message" (body resp) /\
    has_field "error" (body resp).
Proof.
  intros Hc H.
  destruct (failed_read_reply cors connection db hs r e Hc H)
    as (w & hdrs & Hs & Hrs).
  exists w. eexists. split; [exact Hs|]. split; [exact Hrs|].
  unfold has_field. cbn. eauto.
Qed.

Lemma read_failure_is_500_witness :
  exists w resp,
    serve (HcpService.main allow_any_origin Fulfilled)
          (fun _ => Throws (mkError "MongoServerError" "not authorized"))
          (mkRequest GET "/fetch-data" []) = Some (Normal tt, w) /\
    responses (trace w) = [resp] /\
    status resp = 500 /\
    has_field "message" (body resp) /\
    has_field "error" (body resp).
Proof.
  apply (read_failure_is_500 allow_any_origin Fulfilled
           (fun _ => Throws (mkError "MongoServerError" "not authorized")) [] Hcp
           (mkError "MongoServerError" "not authorized")).
  - apply allow_any_origin_permissive.
  - reflexivity.
Defined.

(** C5, as the code has it: when the read fails, the [message] of the
    /fetch-referal-data response is the text "Error fetching Master
    Data", the very text of the /fetch-master-data response; only
    /fetch-data has a text of its own. *)
Theorem referal_failure_text_is_masters (cors : Middleware)
    (connection : Settled) (db : Db) (hs : list (string * string))
    (r : DataRoute) (e : JsError) :
  permissive_cors cors ->
  read_fails (db (collection (route_model r))) = Some e ->
  exists w resp,
    serve (route_process r cors connection) db
          (mkRequest GET (route_path r) hs) = Some (Normal tt, w) /\
    responses (trace w) = [resp] /\
    field "message" (body resp)
    = Some (VStr match r with
                 | Master | Referral => "Error fetching Master Data"
                 | Hcp => "Error fetching HCP data"
                 end).
Proof.
  intros Hc H.
  destruct (failed_read_reply cors connection db hs r e Hc H)
    as (w & hdrs & Hs & Hrs).
  exists w. eexists. split; [exact Hs|]. split; [exact Hrs|]. reflexivity.
Qed.

Lemma referal_failure_text_is_masters_witness :
  exists w resp,
    serve (HcpService.main allow_any_origin Fulfilled)
          (fun _ => Rejects (mkError "MongooseError" "boom"))
          (mkRequest GET "/fetch-referal-data" []) = Some (Normal tt, w) /\
    responses (trace w) = [resp] /\
    field "message" (body resp) = Some (VStr "Error fetching Master Data").
Proof.
  apply (referal_failure_text_is_masters allow_any_origin Fulfilled
           (fun _ => Rejects (mkError "MongooseError" "boom")) [] Referral
           (mkError "MongooseError" "boom")).
  - apply allow_any_origin_permissive.
  - reflexivity.
Defined.

(** C6: on a failed read the [error] field of service A's body is the
    error object itself, that of a service B data route is the string
    [err.message], and the two are never equal. *)
Theorem error_detail_differs (cors : Middleware) (connection : Settled)
    (db : Db) (hs : list (string * string)) (r : DataRoute)
    (ea eb : JsError) :
  permissive_cors cors ->
  r <> Master ->
  read_fails (db "master") = Some ea ->
  read_fails (db (collection (route_model r))) = Some eb ->
  exists wa ra wb rb,
    serve (MasterService.main connection) db
          (mkRequest GET "/fetch-master-data" hs) = Some (Normal tt, wa) /\
    responses (trace wa) = [ra] /\
    serve (route_process r cors connection) db
          (mkRequest GET (route_path r) hs) = Some (Normal tt, wb) /\
    responses (trace wb) = [rb] /\
    field "error" (body ra) = Some (VErr ea) /\
    field "error" (body rb) = Some (VStr (err_message eb)) /\
    field "error" (body ra) <> field "error" (body rb).
Proof.
  intros Hc Hr Ha Hb.
  destruct (master_reply_failed connection db hs ea Ha) as (wa & Hsa & Hra).
  destruct (hcp_reply_failed cors Hc connection db hs r eb Hr Hb)
    as (wb & hdrs & text & Hsb & Hrb & _).
  exists wa. eexists. exists wb. eexists.
  split; [exact Hsa|]. split; [exact Hra|].
  split; [exact Hsb|]. split; [exact Hrb|].
  cbn. repeat split. discriminate.
Qed.

Lemma error_detail_differs_witness :
  exists wa ra wb rb,
    serve (MasterService.main Fulfilled)
          (fun _ => Rejects (mkError "MongooseError" "boom"))
          (mkRequest GET "/fetch-master-data" []) = Some (Normal tt, wa) /\
    responses (trace wa) = [ra] /\
    serve (HcpService.main allow_any_origin Fulfilled)
          (fun _ => Rejects (mkError "MongooseError" "boom"))
          (mkRequest GET "/fetch-data" []) = Some (Normal tt, wb) /\
    responses (trace wb) = [rb] /\
    field "error" (body ra) = Some (VErr (mkError "MongooseError" "boom")) /\
    field "error" (body rb) = Some (VStr "boom") /\
    field "error" (body ra) <> field "error" (body rb).
Proof.
  apply (error_detail_differs allow_any_origin Fulfilled
           (fun _ => Rejects (mkError "MongooseError" "boom")) [] Hcp
           (mkError "MongooseError" "boom") (mkError "MongooseError" "boom")).
  - apply allow_any_origin_permissive.
  - discriminate.
  - reflexivity.
  - reflexivity.
Defined.

(** C9: when the connection attempt of a service is rejected, the script
    has made that one attempt and no other, has logged the error, has
    neither exited nor left the rejection unhandled, and listens on its
    port; and if reads over the failed connection fail, a request on a
    data route is answered with status 500. *)
Theorem failed_connection_is_tolerated (cors : Middleware) (db : Db)
    (hs : list (string * string)) (r : DataRoute) (err : JsError) :
  permissive_cors cors ->
  (forall c, exists e, read_fails (db c) = Some e) ->
  let p := route_process r cors (Rejected err) in
  attempts (console p) = 1%nat /\
  In (ConsoleLogWith "Error connecting to MongoDB: " err) (console p) /\
  stopped (console p) = false /\
  listening p = Some match r with
                     | Master => MasterService.PORT
                     | Hcp | Referral => HcpService.PORT
                     end /\
  exists w resp,
    serve p db (mkRequest GET (route_path r) hs) = Some (Normal tt, w) /\
    responses (trace w) = [resp] /\
    status resp = 500.
Proof.
  intros Hc Hdb p.
  destruct (Hdb (collection (route_model r))) as (e & He).
  destruct (failed_read_reply cors (Rejected err) db hs r e Hc He)
    as (w & hdrs & Hs & Hrs).
  subst p. destruct r; cbn [route_process];
    (repeat split; [cbn; auto ..|]); exists w; eexists; eauto.
Qed.

Lemma failed_connection_is_tolerated_witness :
  let err := mkError "MongoNetworkError" "connect ECONNREFUSED 127.0.0.1:27017" in
  let db : Db := fun _ => Rejects (mkError "MongooseError" "buffering timed out") in
  let p := MasterService.main (Rejected err) in
  attempts (console p) = 1%nat /\
  In (ConsoleLogWith "Error connecting to MongoDB: " err) (console p) /\
  stopped (console p) = false /\
  listening p = Some MasterService.PORT /\
  exists w resp,
    serve p db (mkRequest GET "/fetch-master-data" []) = Some (Normal tt, w) /\
    responses (trace w) = [resp] /\
    status resp = 500.
Proof.
  intros err db.
  apply (failed_connection_is_tolerated allow_any_origin db [] Master err).
  - apply allow_any_origin_permissive.
  - intros c. eexists. reflexivity.
Defined.

(** ** The two scenarios of the specification, run *)

Example master_seeded_scenario :
  serve (MasterService.main Fulfilled)
        (fun _ => Resolves [VObj [("_id", VStr "65f0c0ffee"); ("a", VNum 1)]])
        (mkRequest GET "/fetch-master-data" [])
  = Some (Normal tt,
          {| res := mkRes 200 [] true;
             trace := [Query "master";
                       Send (mkResponse 200 []
                               (VArr [VObj [("_id", VStr "65f0c0ffee");
                                            ("a", VNum 1)]]))] |}).
Proof. reflexivity. Qed.

Example hcp_empty_scenario :
  serve (HcpService.main allow_any_origin Fulfilled) (fun _ => Resolves [])
        (mkRequest GET "/fetch-data" [])
  = Some (Normal tt,
          {| res := mkRes 200 [("Access-Control-Allow-Origin", "*")] true;
             trace := [ConsoleLog "Received request to /fetch-data"; Query "hcp";
                       Send (mkResponse 200 [("Access-Control-Allow-Origin", "*")]
                               (VArr []))] |}).
Proof. reflexivity. Qed.

(** * Further properties of the two scripts *)

(** ** Start-up *)

(** X1: whatever the connection attempt gives, each script makes exactly
    one attempt, on mongodb://localhost:27017/zolgensma, neither exits
    nor leaves a rejection unhandled, and listens on its port; it logs
    "Connected to MongoDB" when the attempt is fulfilled and the error
    when it is rejected, never both. *)
Theorem startup_connects_once_and_listens (cors : Middleware)
    (r : DataRoute) (connection : Settled) :
  let p := route_process r cors connection in
  attempts (console p) = 1%nat /\
  In (Connect "mongodb://localhost:27017/zolgensma") (console p) /\
  stopped (console p) = false /\
  listening p = Some match r with
                     | Master => MasterService.PORT
                     | Hcp | Referral => HcpService.PORT
                     end /\
  match connection with
  | Fulfilled =>
      In (ConsoleLog "Connected to MongoDB") (console p) /\
      forall text e, ~ In (ConsoleLogWith text e) (console p)
  | Rejected e =>
      In (ConsoleLogWith "Error connecting to MongoDB: " e) (console p) /\
      ~ In (ConsoleLog "Connected to MongoDB") (console p)
  end.
Proof.
  intros p. subst p.
  destruct r, connection as [|e]; cbn;
    (repeat split; auto;
     try (intros text e' H); try (intros H);
     repeat (destruct H as [H|H]; [discriminate H|]); try contradiction).
Qed.

(** X2: the router stack and the port are the same whether the
    connection attempt was fulfilled or rejected, so a request is
    answered the same way in both cases: no handler looks at the state
    of the connection, only at what its own read gives. *)
Theorem reply_ignores_connection_outcome (cors : Middleware)
    (r : DataRoute) (c1 c2 : Settled) (db : Db) (req : Request) :
  serve (route_process r cors c1) db req
  = serve (route_process r cors c2) db req.
Proof.
  unfold serve. destruct r; cbn [route_process];
    rewrite ?master_listening, ?master_stack, ?hcp_listening, ?hcp_stack;
    reflexivity.
Qed.

(** ** What a data route reads *)

Lemma fetch_master_data_reads_master (db db' : Db) (req : Request) (w : World) :
  db "master" = db' "master" ->
  MasterService.fetch_master_data db req w
  = MasterService.fetch_master_data db' req w.
Proof.
  intros H. unfold MasterService.fetch_master_data, try_catch, find.
  cbn. unfold Js_bind. cbn. rewrite H. reflexivity.
Qed.

Lemma fetch_data_reads_hcp (db db' : Db) (req : Request) (w : World) :
  db "hcp" = db' "hcp" ->
  HcpService.fetch_data db req w = HcpService.fetch_data db' req w.
Proof. intros H. run_handler. rewrite H. reflexivity. Qed.

Lemma fetch_referal_data_reads_referal (db db' : Db) (req : Request) (w : World) :
  db "referal" = db' "referal" ->
  HcpService.fetch_referal_data db req w
  = HcpService.fetch_referal_data db' req w.
Proof. intros H. run_handler. rewrite H. reflexivity. Qed.

Lemma handle_use (mw : Middleware) (rest : list Layer) (db : Db)
    (req : Request) (w : World) :
  handle (Use mw :: rest) db req w
  = match mw req w with
    | (Normal Next, w') => handle rest db req w'
    | (Normal End, w') => (Normal tt, w')
    | (Return, w') => (Return, w')
    | (Throw e, w') => (Throw e, w')
    end.
Proof.
  cbn. unfold Js_bind. destruct (mw req w) as [[[|]| |e] w']; reflexivity.
Qed.

Lemma handle_route_hit (m : Method) (path : string) (h : Handler)
    (rest : list Layer) (db : Db) (req : Request) (w : World) :
  Method_eqb (req_method req) m && String.eqb (req_path req) path = true ->
  handle (Route m path h :: rest) db req w = call (h db req) w.
Proof. intros H. cbn [handle]. rewrite H. reflexivity. Qed.

Lemma handle_route_miss (m : Method) (path : string) (h : Handler)
    (rest : list Layer) (db : Db) (req : Request) (w : World) :
  Method_eqb (req_method req) m && String.eqb (req_path req) path = false ->
  handle (Route m path h :: rest) db req w = handle rest db req w.
Proof. intros H. cbn [handle]. rewrite H. reflexivity. Qed.

(** X3: the answer of a data route depends on the database through the
    route's own collection only: two databases that agree on that
    collection get the same answer, whatever the other collections hold
    and whatever middleware is installed. *)
Theorem reply_reads_own_collection_only (cors : Middleware)
    (connection : Settled) (db db' : Db) (hs : list (string * string))
    (r : DataRoute) :
  db (collection (route_model r)) = db' (collection (route_model r)) ->
  serve (route_process r cors connection) db (mkRequest GET (route_path r) hs)
  = serve (route_process r cors connection) db' (mkRequest GET (route_path r) hs).
Proof.
  intros H. unfold serve.
  destruct r; cbn [route_process route_path];
    rewrite ?master_listening, ?master_stack, ?hcp_listening, ?hcp_stack;
    rewrite ?handle_use.
  - rewrite !handle_route_hit by reflexivity. unfold call.
    rewrite (fetch_master_data_reads_master db db' _ _ H). reflexivity.
  - destruct (cors _ new_world) as [[[|]| |e] w']; try reflexivity.
    rewrite !handle_route_hit by reflexivity. unfold call.
    rewrite (fetch_data_reads_hcp db db' _ _ H). reflexivity.
  - destruct (cors _ new_world) as [[[|]| |e] w']; try reflexivity.
    rewrite !(handle_route_miss GET "/fetch-data") by reflexivity.
    rewrite !handle_route_hit by reflexivity. unfold call.
    rewrite (fetch_referal_data_reads_referal db db' _ _ H). reflexivity.
Qed.

Lemma reply_reads_own_collection_only_witness :
  serve (HcpService.main allow_any_origin Fulfilled)
        (fun c => if String.eqb c "hcp" then Resolves [VObj [("npi", VNum 7)]]
                  else Rejects (mkError "MongooseError" "boom"))
        (mkRequest GET "/fetch-data" [])
  = serve (HcpService.main allow_any_origin Fulfilled)
          (fun c => if String.eqb c "hcp" then Resolves [VObj [("npi", VNum 7)]]
                    else Resolves [])
          (mkRequest GET "/fetch-data" []).
Proof.
  apply (reply_reads_own_collection_only allow_any_origin Fulfilled
           (fun c => if String.eqb c "hcp" then Resolves [VObj [("npi", VNum 7)]]
                     else Rejects (mkError "MongooseError" "boom"))
           (fun c => if String.eqb c "hcp" then Resolves [VObj [("npi", VNum 7)]]
                     else Resolves [])
           [] Hcp).
  reflexivity.
Defined.

(** X4: a request on a data route issues exactly one read, on the
    collection the route's model is bound to, whether the read resolves
    or fails: a failed read is not tried again. *)
Theorem one_read_per_request (cors : Middleware) (connection : Settled)
    (db : Db) (hs : list (string * string)) (r : DataRoute) :
  permissive_cors cors ->
  exists w,
    serve (route_process r cors connection) db
          (mkRequest GET (route_path r) hs) = Some (Normal tt, w) /\
    queries (trace w) = [collection (route_model r)].
Proof.
  intros Hc.
  destruct (read_outcome_cases (db (collection (route_model r))))
    as [[docs Hd]|[e He]]; destruct r; cbn [route_process route_path].
  - rewrite serve_master. unfold call. destruct docs as [|d docs].
    + rewrite (master_run_empty db _ Hd). eexists; split; reflexivity.
    + rewrite (master_run_some db _ (d :: docs) Hd) by discriminate.
      eexists; split; reflexivity.
  - destruct (serve_hcp_data cors Hc connection db hs)
      as (w' & _ & _ & Hsent & Ht & ->).
    unfold call. rewrite (fetch_data_resolves db _ w' Hsent docs Hd).
    eexists; split; [reflexivity|]. cbn. rewrite Ht. reflexivity.
  - destruct (serve_hcp_referal cors Hc connection db hs)
      as (w' & _ & _ & Hsent & Ht & ->).
    unfold call. rewrite (fetch_referal_data_resolves db _ w' Hsent docs Hd).
    eexists; split; [reflexivity|]. cbn. rewrite Ht. reflexivity.
  - rewrite serve_master. unfold call.
    rewrite (master_run_failed db _ e He). eexists; split; reflexivity.
  - destruct (serve_hcp_data cors Hc connection db hs)
      as (w' & _ & _ & Hsent & Ht & ->).
    unfold call. rewrite (fetch_data_fails db _ w' Hsent e He).
    eexists; split; [reflexivity|]. cbn. rewrite Ht. reflexivity.
  - destruct (serve_hcp_referal cors Hc connection db hs)
      as (w' & _ & _ & Hsent & Ht & ->).
    unfold call. rewrite (fetch_referal_data_fails db _ w' Hsent e He).
    eexists; split; [reflexivity|]. cbn. rewrite Ht. reflexivity.
Qed.

Lemma one_read_per_request_witness :
  exists w,
    serve (HcpService.main allow_any_origin Fulfilled)
          (fun _ => Rejects (mkError "MongooseError" "boom"))
          (mkRequest GET "/fetch-referal-data" []) = Some (Normal tt, w) /\
    queries (trace w) = ["referal"].
Proof.
  apply (one_read_per_request allow_any_origin Fulfilled
           (fun _ => Rejects (mkError "MongooseError" "boom")) [] Referral).
  apply allow_any_origin_permissive.
Defined.

(** ** Console output of a request *)

(** X5: service A writes nothing to the console while it answers
    /fetch-master-data, not even when the read fails: its [catch] block
    only sends the 500. *)
Theorem master_route_is_silent (connection : Settled) (db : Db)
    (hs : list (string * string)) :
  exists w,
    serve (MasterService.main connection) db
          (mkRequest GET "/fetch-master-data" hs) = Some (Normal tt, w) /\
    console_lines (trace w) = [].
Proof.
  rewrite serve_master. unfold call.
  destruct (read_outcome_cases (db "master")) as [[[|d docs] Hd]|[e He]].
  - rewrite (master_run_empty db _ Hd). eexists; split; reflexivity.
  - rewrite (master_run_some db _ (d :: docs) Hd) by discriminate.
    eexists; split; reflexivity.
  - rewrite (master_run_failed db _ e He). eexists; split; reflexivity.
Qed.

(** X6: a data route of service B logs "Received request to <path>"
    first and then issues its read; if the read fails with [e] it logs
    [e] through [console.error] (under the text "Error fetching HCP
    data:" for /fetch-data and "Error fetching Master Data:" for
    /fetch-referal-data) before it sends the response, and it logs
    nothing more when the read resolves. *)
Theorem hcp_routes_console (cors : Middleware) (connection : Settled)
    (db : Db) (hs : list (string * string)) (r : DataRoute) :
  permissive_cors cors ->
  r <> Master ->
  exists w resp,
    serve (route_process r cors connection) db
          (mkRequest GET (route_path r) hs) = Some (Normal tt, w) /\
    trace w
    = ConsoleLog ("Received request to " ++ route_path r)
      :: Query (collection (route_model r))
      :: (match read_fails (db (collection (route_model r))) with
          | Some e =>
              [ConsoleErrorWith match r with
                                | Hcp => "Error fetching HCP data:"
                                | Master | Referral => "Error fetching Master Data:"
                                end e]
          | None => []
          end ++ [Send resp])%list.
Proof.
  intros Hc Hr. destruct r; [congruence| |]; cbn [route_process route_path].
  - destruct (serve_hcp_data cors Hc connection db hs)
      as (w' & _ & _ & Hsent & Ht & ->).
    unfold call.
    destruct (read_outcome_cases (db "hcp")) as [[docs Hd]|[e He]].
    + rewrite (fetch_data_resolves db _ w' Hsent docs Hd).
      do 2 eexists. split; [reflexivity|]. cbn. rewrite Ht, Hd. reflexivity.
    + rewrite (fetch_data_fails db _ w' Hsent e He).
      do 2 eexists. split; [reflexivity|]. cbn. rewrite Ht, He. reflexivity.
  - destruct (serve_hcp_referal cors Hc connection db hs)
      as (w' & _ & _ & Hsent & Ht & ->).
    unfold call.
    destruct (read_outcome_cases (db "referal")) as [[docs Hd]|[e He]].
    + rewrite (fetch_referal_data_resolves db _ w' Hsent docs Hd).
      do 2 eexists. split; [reflexivity|]. cbn. rewrite Ht, Hd. reflexivity.
    + rewrite (fetch_referal_data_fails db _ w' Hsent e He).
      do 2 eexists. split; [reflexivity|]. cbn. rewrite Ht, He. reflexivity.
Qed.

Lemma hcp_routes_console_witness :
  exists w resp,
    serve (HcpService.main allow_any_origin Fulfilled)
          (fun _ => Rejects (mkError "MongooseError" "boom"))
          (mkRequest GET "/fetch-data" []) = Some (Normal tt, w) /\
    trace w
    = [ConsoleLog "Received request to /fetch-data";
       Query "hcp";
       ConsoleErrorWith "Error fetching HCP data:" (mkError "MongooseError" "boom");
       Send resp].
Proof.
  apply (hcp_routes_console allow_any_origin Fulfilled
           (fun _ => Rejects (mkError "MongooseError" "boom")) [] Hcp).
  - apply allow_any_origin_permissive.
  - discriminate.
Defined.

(** ** Handlers on any unwritten response *)




(** ** Reading the store off the answer *)

(** X8: the status of the answer of a data route tells what the read
    did.  A 200 means the read resolved and the body is the array of
    exactly the documents it resolved with (never an empty one on
    /fetch-master-data); a 404 comes from /fetch-master-data on an empty
    collection only; a 500 means the read failed; and there is no other
    status. *)
Theorem status_tells_read_outcome (cors : Middleware) (connection : Settled)
    (db : Db) (hs : list (string * string)) (r : DataRoute)
    (c : Completion unit) (w : World) (resp : Response) :
  permissive_cors cors ->
  serve (route_process r cors connection) db
        (mkRequest GET (route_path r) hs) = Some (c, w) ->
  In resp (responses (trace w)) ->
  (status resp = 200 /\
   exists docs, db (collection (route_model r)) = Resolves docs /\
                body resp = VArr docs /\
                (r = Master -> docs <> []))
  \/ (status resp = 404 /\ r = Master /\ db "master" = Resolves [])
  \/ (status resp = 500 /\
      exists e, read_fails (db (collection (route_model r))) = Some e).
Proof.
  intros Hc Hs Hin.
  destruct (read_outcome_cases (db (collection (route_model r))))
    as [[docs Hd]|[e He]].
  - destruct r.
    + cbn [route_process route_path] in Hs. rewrite serve_master in Hs.
      unfold call in Hs. destruct docs as [|d docs].
      * rewrite (master_run_empty db _ Hd) in Hs. inversion Hs; subst.
        destruct Hin as [<-|[]]. right; left. auto.
      * rewrite (master_run_some db _ (d :: docs) Hd) in Hs by discriminate.
        inversion Hs; subst. destruct Hin as [<-|[]]. left.
        split; [reflexivity|]. exists (d :: docs).
        repeat split; auto. discriminate.
    + destruct (hcp_reply_resolved cors Hc connection db hs Hcp docs)
        as (w0 & hdrs & Hs0 & Hrs & _); [discriminate|exact Hd|].
      rewrite Hs0 in Hs. inversion Hs; subst. rewrite Hrs in Hin.
      destruct Hin as [<-|[]]. left. split; [reflexivity|].
      exists docs. repeat split; auto. discriminate.
    + destruct (hcp_reply_resolved cors Hc connection db hs Referral docs)
        as (w0 & hdrs & Hs0 & Hrs & _); [discriminate|exact Hd|].
      rewrite Hs0 in Hs. inversion Hs; subst. rewrite Hrs in Hin.
      destruct Hin as [<-|[]]. left. split; [reflexivity|].
      exists docs. repeat split; auto. discriminate.
  - destruct (failed_read_reply cors connection db hs r e Hc He)
      as (w0 & hdrs & Hs0 & Hrs).
    rewrite Hs0 in Hs. inversion Hs; subst. rewrite Hrs in Hin.
    destruct Hin as [<-|[]]. right; right. split; [reflexivity|]. eauto.
Qed.

Lemma status_tells_read_outcome_witness :
  let db : Db := fun _ => Resolves [VObj [("a", VNum 1)]] in
  let resp := mkResponse 200 [] (VArr [VObj [("a", VNum 1)]]) in
  (status resp = 200 /\
   exists docs, db "master" = Resolves docs /\
                body resp = VArr docs /\
                (Master = Master -> docs <> []))
  \/ (status resp = 404 /\ Master = Master /\ db "master" = Resolves [])
  \/ (status resp = 500 /\ exists e, read_fails (db "master") = Some e).
Proof.
  intros db resp.
  apply (status_tells_read_outcome allow_any_origin Fulfilled db [] Master
           (Normal tt)
           {| res := mkRes 200 [] true;
              trace := [Query "master"; Send resp] |} resp).
  - apply allow_any_origin_permissive.
  - reflexivity.
  - cbn. auto.
Defined.

(** ** Requests that are not reads *)

(** X9: both scripts register their routes with [app.get] only, so a
    POST, PUT or DELETE request, on any path, reaches no handler: no
    read is issued and nothing is written to the console. *)
Theorem writes_reach_no_handler (cors : Middleware) (connection : Settled)
    (db : Db) (r : DataRoute) (req : Request) :
  permissive_cors cors ->
  In (req_method req) [POST; PUT; DELETE] ->
  exists c w,
    serve (route_process r cors connection) db req = Some (c, w) /\
    queries (trace w) = [] /\
    console_lines (trace w) = [].
Proof.
  intros Hc Hm.
  assert (Hmiss : forall path, Method_eqb (req_method req) GET
                               && String.eqb (req_path req) path = false).
  { intros path. destruct Hm as [<-|[<-|[<-|[]]]]; reflexivity. }
  assert (Hno : req_method req <> OPTIONS).
  { destruct Hm as [<-|[<-|[<-|[]]]]; discriminate. }
  unfold serve.
  destruct r; cbn [route_process];
    rewrite ?master_listening, ?master_stack, ?hcp_listening, ?hcp_stack;
    rewrite ?handle_use.
  - rewrite handle_route_miss by apply Hmiss.
    do 2 eexists. split; [reflexivity|]. split; reflexivity.
  - destruct (Hc req new_world Hno) as (w' & -> & _ & _ & Hsent & Ht).
    rewrite !handle_route_miss by apply Hmiss.
    cbn. unfold Js_bind, res_status, res_json. cbn.
    cbn in Hsent. rewrite Hsent.
    do 2 eexists. split; [reflexivity|]. cbn. rewrite Ht. split; reflexivity.
  - destruct (Hc req new_world Hno) as (w' & -> & _ & _ & Hsent & Ht).
    rewrite !handle_route_miss by apply Hmiss.
    cbn. unfold Js_bind, res_status, res_json. cbn.
    cbn in Hsent. rewrite Hsent.
    do 2 eexists. split; [reflexivity|]. cbn. rewrite Ht. split; reflexivity.
Qed.

Lemma writes_reach_no_handler_witness :
  exists c w,
    serve (HcpService.main allow_any_origin Fulfilled)
          (fun _ => Resolves [VObj [("a", VNum 1)]])
          (mkRequest DELETE "/fetch-data" []) = Some (c, w) /\
    queries (trace w) = [] /\
    console_lines (trace w) = [].
Proof.
  apply (writes_reach_no_handler allow_any_origin Fulfilled
           (fun _ => Resolves [VObj [("a", VNum 1)]]) Hcp
           (mkRequest DELETE "/fetch-data" [])).
  - apply allow_any_origin_permissive.
  - cbn. auto.
Defined.
